(** * App.tsx: session-derived role, poster synchronisation and view state

    A shallow embedding of the [App] component of [src/App.tsx].  The React
    state cells become the fields of a record, every handler becomes a
    function on a [World] (the state cells, the network requests awaiting an
    answer, and the trace of observable effects), and the user gestures,
    session notifications and network answers become the events of a step
    function. *)

From stdpp Require Import base option list strings.

Open Scope string_scope.

(** ** Data model *)

(** Modelled from the spec: the [Poster] type is declared in
    [components/PosterCard], which is imported by [App.tsx]; its fields follow
    the poster record wire shape.  [App.tsx] itself only reads [category]
    (and [id], as a React key). *)
Record Poster := mkPoster {
  id : string;
  title : string;
  category : string;
  imageUrl : string;
  description : string;
  createdAt : string
}.

(** The part of a supabase session that [App.tsx] reads through
    [session?.user?.email]: every link of the chain may be missing. *)
Record User := mkUser { email : option string }.
Record Session := mkSession { user : option User }.

(** The [useState] cells of [App], lines 21-29. *)
Record AppState := mkAppState {
  posters : list Poster;
  selectedPoster : option Poster;
  isModalOpen : bool;
  isUploadDialogOpen : bool;
  isAuthModalOpen : bool;
  selectedCategory : string;
  isLoading : bool;
  userEmail : option string;
  isAdmin : bool
}.

(** The initial values handed to [useState]. *)
Definition initialState : AppState :=
  {| posters := [];
     selectedPoster := None;
     isModalOpen := false;
     isUploadDialogOpen := false;
     isAuthModalOpen := false;
     selectedCategory := "all";
     isLoading := true;
     userEmail := None;
     isAdmin := false |}.

(** ** Session manager *)

(** [const ADMIN_EMAILS = [...]], line 18. *)
Definition ADMIN_EMAILS : list string :=
  ["dhakwanhidaya@gmail.com"; "dhakwansidra26@gmail.com"].

(** [Array.prototype.includes] on an array of strings: a left-to-right scan
    with strict (SameValueZero) equality, which on strings is equality of
    the character sequences. *)
Fixpoint includes (xs : list string) (x : string) : bool :=
  match xs with
  | [] => false
  | y :: ys => if String.eqb y x then true else includes ys x
  end.

(** JavaScript truthiness of a string: only the empty string is falsy. *)
Definition truthy (s : string) : bool := negb (String.eqb s "").

(** [session?.user?.email]: [undefined] as soon as one link is missing. *)
Definition session_email (session : option Session) : option string :=
  match session with
  | None => None
  | Some s =>
      match user s with
      | None => None
      | Some u => email u
      end
  end.

(** [const email = session?.user?.email || null]. *)
Definition email_or_null (session : option Session) : option string :=
  match session_email session with
  | Some e => if truthy e then Some e else None
  | None => None
  end.

(** [email ? ADMIN_EMAILS.includes(email) : false]. *)
Definition admin_of_email (e : option string) : bool :=
  match e with
  | Some e => if truthy e then includes ADMIN_EMAILS e else false
  | None => false
  end.

(** ** View state: the derived poster list, lines 131-133. *)

(** The callback [poster => poster.category === selectedCategory]. *)
Definition hasCategory (c : string) (poster : Poster) : bool :=
  String.eqb (category poster) c.

Definition filteredPosters (st : AppState) : list Poster :=
  if String.eqb (selectedCategory st) "all"
  then posters st
  else List.filter (hasCategory (selectedCategory st)) (posters st).

(** ** Effects and in-flight requests *)

(** The two requests [App] sends with [fetch]. *)
Inductive Request :=
| GetPosters
| DeletePoster (posterId : string).

(** The parsed body [await response.json()], read through [result.success],
    [result.posters] and [result.error]. *)
Record Result := mkResult {
  success : bool;
  result_posters : list Poster;
  error : option string
}.

(** What the two [await]s of a handler ([fetch], then [response.json()])
    deliver together: a parsed body, or an exception that lands in [catch]
    (network failure, unparsable body). *)
Inductive Response :=
| Resolved (result : Result)
| Rejected (reason : string).

(** What the component does to the outside world. *)
Inductive Effect :=
| Alert (msg : string)
| ConsoleError (msg : string)
| NetRequest (req : Request)
| AuthSignOut.

#[global] Instance Request_eq_dec : EqDecision Request.
Proof. solve_decision. Defined.
#[global] Instance Effect_eq_dec : EqDecision Effect.
Proof. solve_decision. Defined.

(** The state cells, the requests whose answer is still awaited (oldest
    first) and the effects performed so far (most recent first). *)
Record World := mkWorld {
  app : AppState;
  inflight : list Request;
  effects : list Effect
}.

Definition initialWorld : World :=
  {| app := initialState; inflight := []; effects := [] |}.

(** A handler, or a piece of one, transforms the world. *)
Definition Act := World -> World.

Definition seq (a b : Act) : Act := fun w => b (a w).
Notation "a >>> b" := (seq a b) (at level 65, right associativity).

Definition skip : Act := fun w => w.

Definition update (f : AppState -> AppState) : Act :=
  fun w => {| app := f (app w); inflight := inflight w; effects := effects w |}.

Definition emit (e : Effect) : Act :=
  fun w => {| app := app w; inflight := inflight w; effects := e :: effects w |}.

(** [await fetch(...)]: the request leaves and the handler is suspended
    until the answer arrives. *)
Definition await (req : Request) : Act :=
  fun w => {| app := app w;
              inflight := inflight w ++ [req];
              effects := NetRequest req :: effects w |}.

Definition alert (msg : string) : Act := emit (Alert msg).
Definition console_error (msg : string) : Act := emit (ConsoleError msg).

(** The state setters returned by [useState]. *)
Definition setPosters (v : list Poster) : Act :=
  update (fun st => mkAppState v (selectedPoster st) (isModalOpen st)
    (isUploadDialogOpen st) (isAuthModalOpen st) (selectedCategory st)
    (isLoading st) (userEmail st) (isAdmin st)).
Definition setSelectedPoster (v : option Poster) : Act :=
  update (fun st => mkAppState (posters st) v (isModalOpen st)
    (isUploadDialogOpen st) (isAuthModalOpen st) (selectedCategory st)
    (isLoading st) (userEmail st) (isAdmin st)).
Definition setIsModalOpen (v : bool) : Act :=
  update (fun st => mkAppState (posters st) (selectedPoster st) v
    (isUploadDialogOpen st) (isAuthModalOpen st) (selectedCategory st)
    (isLoading st) (userEmail st) (isAdmin st)).
Definition setIsUploadDialogOpen (v : bool) : Act :=
  update (fun st => mkAppState (posters st) (selectedPoster st) (isModalOpen st)
    v (isAuthModalOpen st) (selectedCategory st)
    (isLoading st) (userEmail st) (isAdmin st)).
Definition setIsAuthModalOpen (v : bool) : Act :=
  update (fun st => mkAppState (posters st) (selectedPoster st) (isModalOpen st)
    (isUploadDialogOpen st) v (selectedCategory st)
    (isLoading st) (userEmail st) (isAdmin st)).
Definition setSelectedCategory (v : string) : Act :=
  update (fun st => mkAppState (posters st) (selectedPoster st) (isModalOpen st)
    (isUploadDialogOpen st) (isAuthModalOpen st) v
    (isLoading st) (userEmail st) (isAdmin st)).
Definition setIsLoading (v : bool) : Act :=
  update (fun st => mkAppState (posters st) (selectedPoster st) (isModalOpen st)
    (isUploadDialogOpen st) (isAuthModalOpen st) (selectedCategory st)
    v (userEmail st) (isAdmin st)).
Definition setUserEmail (v : option string) : Act :=
  update (fun st => mkAppState (posters st) (selectedPoster st) (isModalOpen st)
    (isUploadDialogOpen st) (isAuthModalOpen st) (selectedCategory st)
    (isLoading st) v (isAdmin st)).
Definition setIsAdmin (v : bool) : Act :=
  update (fun st => mkAppState (posters st) (selectedPoster st) (isModalOpen st)
    (isUploadDialogOpen st) (isAuthModalOpen st) (selectedCategory st)
    (isLoading st) (userEmail st) v).

(** ** Handlers

    A handler reads the state cells of the render it was created in; an
    event is handled in the world that render shows, so the handlers below
    read the cells of the world they start from.  An [async] handler is cut
    at its [await]: the part before it runs when the handler is called, the
    part after it when the answer arrives. *)

(** The callback of [supabase.auth.getSession().then(...)], lines 36-40. *)
Definition getSession_then (session : option Session) : Act :=
  let email := email_or_null session in
  setUserEmail email >>>
  setIsAdmin (admin_of_email email).

(** The callback of [supabase.auth.onAuthStateChange], lines 45-49. *)
Definition onAuthStateChange (session : option Session) : Act :=
  let email := email_or_null session in
  setUserEmail email >>>
  setIsAdmin (admin_of_email email).

(** [fetchPosters] up to its [await], lines 55-65. *)
Definition fetchPosters : Act :=
  setIsLoading true >>>
  await GetPosters.

(** [fetchPosters] from the answer on, lines 67-78: the [try] body or the
    [catch] block, then the [finally] block. *)
Definition fetchPosters_resume (r : Response) : Act :=
  match r with
  | Resolved result =>
      if success result
      then setPosters (result_posters result)
      else console_error "Failed to fetch posters:"
  | Rejected _ => console_error "Error fetching posters:"
  end >>>
  setIsLoading false.

(** [handleDelete] up to its [await], lines 82-97. *)
Definition handleDelete (posterId : string) : Act :=
  fun w =>
    if negb (isAdmin (app w))
    then alert "Only admins can delete posters" w
    else await (DeletePoster posterId) w.

(** [handleDelete] from the answer on, lines 99-111. *)
Definition handleDelete_resume (r : Response) : Act :=
  match r with
  | Resolved result =>
      if success result
      then fetchPosters
      else console_error "Failed to delete poster:" >>>
           alert "Failed to delete poster"
  | Rejected _ =>
      console_error "Error deleting poster:" >>>
      alert "Failed to delete poster"
  end.

(** [handleSignOut], lines 114-116: the state cells are not touched, the
    session notification does that. *)
Definition handleSignOut : Act := emit AuthSignOut.

(** [handleAddPoster], lines 118-125. *)
Definition handleAddPoster : Act :=
  fun w =>
    if negb (isAdmin (app w))
    then (alert "Only admins can upload posters. Please sign in with an admin account." >>>
          setIsAuthModalOpen true) w
    else setIsUploadDialogOpen true w.

(** [handlePosterClick], lines 135-138. *)
Definition handlePosterClick (poster : Poster) : Act :=
  setSelectedPoster (Some poster) >>>
  setIsModalOpen true.

(** The [onDelete] prop of a card, line 225. *)
Definition onDelete (posterId : string) : Act :=
  fun w => if isAdmin (app w) then handleDelete posterId w else skip w.

(** The [onAuthSuccess] prop of the auth modal, lines 263-266. *)
Definition onAuthSuccess : Act :=
  setIsAuthModalOpen false >>>
  fetchPosters.

(** The [onUploadSuccess] prop of the upload dialog, line 256. *)
Definition onUploadSuccess : Act := fetchPosters.

(** ** Events *)

Inductive Event :=
| Mount                                         (* [useEffect], lines 127-129 *)
| GetSessionResolved (session : option Session)  (* line 36 *)
| AuthStateChange (session : option Session)     (* line 45 *)
| TabChange (c : string)                         (* line 190 *)
| PosterClick (poster : Poster)                  (* line 224 *)
| DeleteClick (posterId : string)                (* line 225 *)
| AddPosterClick                                 (* lines 164 and 236 *)
| SignOutClick                                   (* line 171 *)
| AdminLoginClick                                (* line 176 *)
| ModalClose                                     (* line 249 *)
| UploadClose                                    (* line 255 *)
| AuthClose                                      (* line 262 *)
| UploadSuccess                                  (* line 256 *)
| AuthSuccess                                    (* line 263 *)
| Answer (n : nat) (r : Response).               (* the n-th awaited answer arrives *)

(** The suspended handler that a request belongs to. *)
Definition resume (req : Request) (r : Response) : Act :=
  match req with
  | GetPosters => fetchPosters_resume r
  | DeletePoster _ => handleDelete_resume r
  end.

(** The answer to the [n]-th request in flight arrives: the request is no
    longer awaited and its handler runs on; an answer to no request is
    ignored. *)
Definition answer (n : nat) (r : Response) : Act :=
  fun w =>
    match inflight w !! n with
    | Some req =>
        resume req r {| app := app w;
                        inflight := delete n (inflight w);
                        effects := effects w |}
    | None => w
    end.

Definition step (w : World) (e : Event) : World :=
  match e with
  | Mount => fetchPosters w
  | GetSessionResolved session => getSession_then session w
  | AuthStateChange session => onAuthStateChange session w
  | TabChange c => setSelectedCategory c w
  | PosterClick poster => handlePosterClick poster w
  | DeleteClick posterId => onDelete posterId w
  | AddPosterClick => handleAddPoster w
  | SignOutClick => handleSignOut w
  | AdminLoginClick => setIsAuthModalOpen true w
  | ModalClose => setIsModalOpen false w
  | UploadClose => setIsUploadDialogOpen false w
  | AuthClose => setIsAuthModalOpen false w
  | UploadSuccess => onUploadSuccess w
  | AuthSuccess => onAuthSuccess w
  | Answer n r => answer n r w
  end.

(** The world after a sequence of events, from a given world. *)
Definition run (w : World) (evs : list Event) : World := foldl step w evs.

(** ** Observations on a world *)

Definition isGetPosters (req : Request) : bool :=
  match req with
  | GetPosters => true
  | DeletePoster _ => false
  end.

Definition isRefreshCall (e : Effect) : bool :=
  match e with
  | NetRequest req => isGetPosters req
  | _ => false
  end.

(** The number of [fetchPosters] calls made so far: each call sends exactly
    one [GetPosters] request, and nothing else sends one. *)
Definition refreshCalls (w : World) : nat :=
  length (List.filter isRefreshCall (effects w)).

(** The number of [fetchPosters] calls that still await their answer. *)
Definition refreshesInFlight (w : World) : nat :=
  length (List.filter isGetPosters (inflight w)).

(** The network requests sent so far, most recent first. *)
Definition networkCalls (w : World) : list Request :=
  omap (fun e => match e with NetRequest req => Some req | _ => None end) (effects w).

(** The user-visible notices ([alert]) raised so far, most recent first. *)
Definition notices (w : World) : list string :=
  omap (fun e => match e with Alert msg => Some msg | _ => None end) (effects w).

(** An answer that is not a success: the server says [success: false], or
    the request or the parsing of its answer threw. *)
Definition failed (r : Response) : bool :=
  match r with
  | Resolved result => negb (success result)
  | Rejected _ => true
  end.

(** A run in which refreshes never overlap: after every event at most one
    [fetchPosters] call awaits its answer. *)
Fixpoint serial (w : World) (evs : list Event) : bool :=
  match evs with
  | [] => true
  | e :: evs' =>
      bool_decide (refreshesInFlight (step w e) <= 1) && serial (step w e) evs'
  end.

(** ** The upload dialog *)

Module UploadDialog.

(** Modelled from the spec: the [UploadDialog] component
    ([components/UploadDialog]) is imported by [App.tsx] but is not among
    the sources.  The spec gives upload the shape of delete: a network call,
    then on a successful answer the success signal ([onUploadSuccess], which
    [App] binds to [fetchPosters]) and on a failed answer (reported or
    transport-level) a user-visible notice and no refresh. *)
Definition submit_resume (onUploadSuccess : Act) (r : Response) : Act :=
  match r with
  | Resolved result =>
      if success result
      then onUploadSuccess
      else alert "Failed to upload poster"
  | Rejected _ => alert "Failed to upload poster"
  end.

End UploadDialog.

(** ** Concrete scenarios *)

(** The scenario of the spec: three "Vintage" posters among five. *)
Definition gallery5 : list Poster :=
  [ mkPoster "p1" "Sunset" "Vintage" "u1" "" "2024-01-01";
    mkPoster "p2" "Letters" "Typography" "u2" "" "2024-01-02";
    mkPoster "p3" "Radio" "Vintage" "u3" "" "2024-01-03";
    mkPoster "p4" "Lines" "Abstract" "u4" "" "2024-01-04";
    mkPoster "p5" "Tram" "Vintage" "u5" "" "2024-01-05" ].

Definition vintageState : AppState :=
  mkAppState gallery5 None false false false "Vintage" false None false.

Definition adminSession : option Session :=
  Some (mkSession (Some (mkUser (Some "dhakwanhidaya@gmail.com")))).

Definition okGallery : Response := Resolved (mkResult true gallery5 None).

(** An admin is signed in, the gallery is loaded, and the deletion of "p1"
    awaits its answer. *)
Definition deletingWorld : World :=
  run initialWorld
    [Mount; AuthStateChange adminSession; Answer 0 okGallery; DeleteClick "p1"].

(** Two refreshes overlap and the first answer has arrived. *)
Definition overlappingRun : list Event :=
  [Mount; AuthSuccess; Answer 0 okGallery].

(** ** What one event does to the loading flag and the refresh counters *)

Inductive RefreshEffect (w w' : World) : Prop :=
| refresh_untouched :
    isLoading (app w') = isLoading (app w) ->
    refreshesInFlight w' = refreshesInFlight w ->
    refreshCalls w' = refreshCalls w ->
    RefreshEffect w w'
| refresh_started :
    isLoading (app w') = true ->
    refreshesInFlight w' = S (refreshesInFlight w) ->
    refreshCalls w' = S (refreshCalls w) ->
    RefreshEffect w w'
| refresh_ended :
    isLoading (app w') = false ->
    S (refreshesInFlight w') = refreshesInFlight w ->
    refreshCalls w' = refreshCalls w ->
    RefreshEffect w w'.

(** What holds of the loading flag in every world, overlapping refreshes
    or not: a refresh in flight was started, and when none is in flight the
    flag is true exactly when none was ever started. *)
Definition loading_inv (w : World) : Prop :=
  refreshesInFlight w <= refreshCalls w /\
  (refreshesInFlight w = 0 -> (isLoading (app w) = true <-> refreshCalls w = 0)).

(** What holds in addition as long as refreshes do not overlap. *)
Definition serial_inv (w : World) : Prop :=
  loading_inv w /\
  refreshesInFlight w <= 1 /\
  (refreshesInFlight w = 1 -> isLoading (app w) = true).

(** The loading flag as the sentence "true strictly between the start and
    the end of each refresh, false otherwise" has it. *)
Definition loading_iff_refreshing (w : World) : Prop :=
  isLoading (app w) = true <-> 0 < refreshesInFlight w.

(** The detail overlay and the selection as the sentence "open coincides
    with selected" has them. *)
Definition open_iff_selected (w : World) : Prop :=
  isModalOpen (app w) = true <-> is_Some (selectedPoster (app w)).

(** ** Rendering, lines 140-269

    What the JSX returned by [App] shows, as far as [App] itself decides it:
    the conditional parts of the header, the tabs, the spinner, the grid of
    cards, the empty-state message and the props handed to the three
    overlays. *)

(** [const categories = [...]], line 31. *)
Definition categories : list string :=
  ["all"; "Typography"; "Modern Art"; "Abstract"; "Vintage"; "Minimalist";
   "Illustration"; "Photography"].

(** The text of a tab, line 194. *)
Definition tabLabel (c : string) : string :=
  if String.eqb c "all" then "All" else c.

(** Truthiness of [userEmail], a string or [null]. *)
Definition truthyEmail (e : option string) : bool :=
  match e with
  | Some s => truthy s
  | None => false
  end.

(** The props of one [PosterCard], lines 221-227; [onClick] and [onDelete]
    are the events [PosterClick] and [DeleteClick]. *)
Record Card := mkCard {
  card_key : string;
  card_poster : Poster;
  card_showDelete : bool
}.

Record View := mkView {
  view_email : option string;            (* lines 151 and 159 *)
  view_adminBadge : bool;                (* lines 153-158 *)
  view_addPosterButton : bool;           (* lines 163-168 *)
  view_signOutButton : bool;             (* lines 170-174 *)
  view_adminLoginButton : bool;          (* lines 175-180 *)
  view_activeTab : string;               (* line 190 *)
  view_tabs : list (string * string);    (* lines 192-196: value and text *)
  view_spinner : bool;                   (* lines 211-215 *)
  view_grid : option (list Card);        (* lines 218-230 *)
  view_emptyMessage : bool;              (* lines 232-234 *)
  view_uploadFirstButton : bool;         (* lines 235-240 *)
  view_detail : option Poster * bool;    (* lines 246-250: poster, isOpen *)
  view_uploadOpen : bool;                (* line 254 *)
  view_authOpen : bool                   (* line 261 *)
}.

Definition render (st : AppState) : View :=
  {| view_email := if truthyEmail (userEmail st) then userEmail st else None;
     view_adminBadge := truthyEmail (userEmail st) && isAdmin st;
     view_addPosterButton := isAdmin st;
     view_signOutButton := truthyEmail (userEmail st);
     view_adminLoginButton := negb (truthyEmail (userEmail st));
     view_activeTab := selectedCategory st;
     view_tabs := List.map (fun c => (c, tabLabel c)) categories;
     view_spinner := isLoading st;
     view_grid :=
       if negb (isLoading st)
       then Some (List.map (fun poster => mkCard (id poster) poster (isAdmin st))
                           (filteredPosters st))
       else None;
     view_emptyMessage :=
       negb (isLoading st) && Nat.eqb (length (filteredPosters st)) 0;
     view_uploadFirstButton :=
       negb (isLoading st) && Nat.eqb (length (filteredPosters st)) 0 && isAdmin st;
     view_detail := (selectedPoster st, isModalOpen st);
     view_uploadOpen := isUploadDialogOpen st;
     view_authOpen := isAuthModalOpen st |}.

#[global] Instance Poster_eq_dec : EqDecision Poster.
Proof. solve_decision. Defined.

(** An event the rendered page offers: a gesture needs the control it acts
    on to be rendered ([App] renders the two "add" buttons, the sign-out
    and login buttons, the tabs and the cards conditionally); what the
    session, the network and the three overlay components signal is not
    decided by [App] and is always possible. *)
Definition offered (w : World) (e : Event) : bool :=
  let v := render (app w) in
  match e with
  | TabChange c => includes (List.map fst (view_tabs v)) c
  | PosterClick poster =>
      match view_grid v with
      | Some cards => bool_decide (poster ∈ List.map card_poster cards)
      | None => false
      end
  | DeleteClick _ =>
      match view_grid v with
      | Some (_ :: _) => true
      | _ => false
      end
  | AddPosterClick => view_addPosterButton v || view_uploadFirstButton v
  | SignOutClick => view_signOutButton v
  | AdminLoginClick => view_adminLoginButton v
  | _ => true
  end.

(** A run in which every event is offered by the page it happens on. *)
Fixpoint offered_run (w : World) (evs : list Event) : bool :=
  match evs with
  | [] => true
  | e :: evs' => offered w e && offered_run (step w e) evs'
  end.

(** ** Classifying events *)


(** A session event that grants the admin role. *)
Definition grantsAdmin (e : Event) : bool :=
  match e with
  | GetSessionResolved session | AuthStateChange session =>
      admin_of_email (email_or_null session)
  | _ => false
  end.

(** The events that call [fetchPosters]: the mount effect, the two success
    props, and the successful answer to a delete request. *)
Definition startsRefresh (w : World) (e : Event) : bool :=
  match e with
  | Mount | UploadSuccess | AuthSuccess => true
  | Answer n (Resolved result) =>
      match inflight w !! n with
      | Some (DeletePoster _) => success result
      | _ => false
      end
  | _ => false
  end.

(** The requests an event sends: a refresh sends one [GetPosters], a delete
    click of an admin one [DeletePoster], and nothing else sends anything. *)
Definition requestsSent (w : World) (e : Event) : list Request :=
  if startsRefresh w e then [GetPosters]
  else match e with
       | DeleteClick posterId => if isAdmin (app w) then [DeletePoster posterId] else []
       | _ => []
       end.

(** The event is a successful answer to a refresh, carrying [ps]. *)
Definition deliversSnapshot (w : World) (e : Event) : option (list Poster) :=
  match e with
  | Answer n (Resolved result) =>
      match inflight w !! n with
      | Some GetPosters => if success result then Some (result_posters result) else None
      | _ => None
      end
  | _ => None
  end.

(** The three notices [App] can raise. *)
Definition deleteGuardNotice : string := "Only admins can delete posters".
Definition uploadGuardNotice : string :=
  "Only admins can upload posters. Please sign in with an admin account.".
Definition deleteFailedNotice : string := "Failed to delete poster".

Definition isDeleteRequest (req : Request) : bool :=
  match req with
  | DeletePoster _ => true
  | GetPosters => false
  end.

(** The role and the e-mail agree: the role is the one derived from the
    stored e-mail, and the stored e-mail is never the empty string. *)
Definition role_inv (st : AppState) : Prop :=
  isAdmin st = admin_of_email (userEmail st) /\ userEmail st <> Some "".

(** * Properties *)

(** ** Session manager *)

Lemma includes_elem_of (xs : list string) (x : string) :
  includes xs x = bool_decide (x ∈ xs).
Proof.
  induction xs as [|y ys IH]; cbn [includes].
  - symmetry. apply bool_decide_eq_false_2, not_elem_of_nil.
  - destruct (String.eqb_spec y x) as [->|Hne].
    + symmetry. apply bool_decide_eq_true_2, list_elem_of_here.
    + rewrite IH. apply bool_decide_ext. rewrite elem_of_cons.
      intuition congruence.
Qed.

Lemma truthy_false (s : string) : truthy s = false -> s = "".
Proof.
  unfold truthy. destruct (String.eqb_spec s ""); [done|discriminate].
Qed.

(** The role computed from a session is membership of the session's e-mail
    in the allowlist; the empty e-mail, which the code treats as absent, is
    not a member. *)
Lemma admin_of_email_or_null (session : option Session) :
  admin_of_email (email_or_null session) =
  match session_email session with
  | Some e => bool_decide (e ∈ ADMIN_EMAILS)
  | None => false
  end.
Proof.
  unfold email_or_null. destruct (session_email session) as [e|]; [|done].
  destruct (truthy e) eqn:He; cbn [admin_of_email].
  - rewrite He. apply includes_elem_of.
  - apply truthy_false in He as ->. done.
Qed.

Lemma elem_of_ADMIN_EMAILS (e : string) :
  e ∈ ADMIN_EMAILS <-> e = "dhakwanhidaya@gmail.com" \/ e = "dhakwansidra26@gmail.com".
Proof.
  unfold ADMIN_EMAILS. rewrite !elem_of_cons, elem_of_nil. tauto.
Qed.

(** Both session callbacks store the same derived role. *)
Lemma session_callbacks_isAdmin (w : World) (session : option Session) :
  isAdmin (app (getSession_then session w)) = admin_of_email (email_or_null session) /\
  isAdmin (app (onAuthStateChange session w)) = admin_of_email (email_or_null session).
Proof. split; reflexivity. Qed.

(** C1: on every session event, the initial [getSession] answer as well as
    an [onAuthStateChange] notification, the role written to the state is
    true exactly when the session has an e-mail and that e-mail is in the
    admin allowlist: a session that carries the e-mail [e] gets the role
    "[e] is on the allowlist", and a session without e-mail (no session, no
    user, or a user without e-mail) gets false. *)
Theorem isAdmin_session_event (w : World) (session : option Session) :
  let derived :=
    match session with
    | Some (mkSession (Some (mkUser (Some e)))) => bool_decide (e ∈ ADMIN_EMAILS)
    | Some (mkSession (Some (mkUser None))) => false
    | Some (mkSession None) => false
    | None => false
    end in
  isAdmin (app (step w (GetSessionResolved session))) = derived /\
  isAdmin (app (step w (AuthStateChange session))) = derived.
Proof.
  intros derived. cbn [step].
  destruct (session_callbacks_isAdmin w session) as [-> ->].
  unfold derived. rewrite admin_of_email_or_null.
  destruct session as [[[[[e|]]|]]|]; cbn [session_email user email];
    split; reflexivity.
Qed.

Lemma isAdmin_session_event_witness :
  isAdmin (app (step initialWorld (GetSessionResolved
    (Some (mkSession (Some (mkUser (Some "dhakwanhidaya@gmail.com")))))))) = true /\
  isAdmin (app (step initialWorld (AuthStateChange
    (Some (mkSession (Some (mkUser (Some "dhakwansidra26@gmail.com")))))))) = true /\
  isAdmin (app (step initialWorld (AuthStateChange
    (Some (mkSession (Some (mkUser (Some "guest@example.org")))))))) = false /\
  isAdmin (app (step initialWorld (GetSessionResolved
    (Some (mkSession (Some (mkUser None))))))) = false /\
  isAdmin (app (step initialWorld (AuthStateChange None))) = false.
Proof.
  split; [|split; [|split; [|split]]].
  - exact (proj1 (isAdmin_session_event initialWorld
      (Some (mkSession (Some (mkUser (Some "dhakwanhidaya@gmail.com"))))))).
  - exact (proj2 (isAdmin_session_event initialWorld
      (Some (mkSession (Some (mkUser (Some "dhakwansidra26@gmail.com"))))))).
  - exact (proj2 (isAdmin_session_event initialWorld
      (Some (mkSession (Some (mkUser (Some "guest@example.org"))))))).
  - exact (proj1 (isAdmin_session_event initialWorld
      (Some (mkSession (Some (mkUser None)))))).
  - exact (proj2 (isAdmin_session_event initialWorld None)).
Defined.

(** C9: the allowlist has exactly the two members
    [dhakwanhidaya@gmail.com] and [dhakwansidra26@gmail.com], membership is
    equality of strings, and a session event makes [isAdmin] true for
    exactly the sessions that carry one of the two e-mails: for every
    other session, also one without user or without e-mail, it makes
    [isAdmin] false. *)
Theorem admin_allowlist_exact :
  length ADMIN_EMAILS = 2 /\
  NoDup ADMIN_EMAILS /\
  (forall e : string,
     includes ADMIN_EMAILS e = true <->
     e = "dhakwanhidaya@gmail.com" \/ e = "dhakwansidra26@gmail.com") /\
  (forall (w : World) (session : option Session),
     let allowed :=
       session = Some (mkSession (Some (mkUser (Some "dhakwanhidaya@gmail.com")))) \/
       session = Some (mkSession (Some (mkUser (Some "dhakwansidra26@gmail.com")))) in
     (isAdmin (app (step w (GetSessionResolved session))) = true <-> allowed) /\
     (isAdmin (app (step w (AuthStateChange session))) = true <-> allowed)).
Proof.
  split; [done|]. split; [by apply (bool_decide_unpack _)|]. split.
  - intros e. rewrite includes_elem_of, bool_decide_eq_true.
    apply elem_of_ADMIN_EMAILS.
  - intros w session allowed.
    cbn [step]. destruct (session_callbacks_isAdmin w session) as [-> ->].
    rewrite admin_of_email_or_null.
    assert (match session_email session with
            | Some e => bool_decide (e ∈ ADMIN_EMAILS)
            | None => false
            end = true <-> allowed) as Hiff; [|by split].
    unfold allowed.
    destruct session as [[[[[e|]]|]]|]; cbn [session_email user email].
    + rewrite bool_decide_eq_true, elem_of_ADMIN_EMAILS.
      split; (intros [H|H]; [left|right]; congruence).
    + split; [discriminate|intros [H|H]; discriminate].
    + split; [discriminate|intros [H|H]; discriminate].
    + split; [discriminate|intros [H|H]; discriminate].
Qed.

Lemma admin_allowlist_exact_witness :
  isAdmin (app (step initialWorld (GetSessionResolved
    (Some (mkSession (Some (mkUser (Some "dhakwanhidaya@gmail.com")))))))) = true /\
  isAdmin (app (step initialWorld (AuthStateChange
    (Some (mkSession (Some (mkUser (Some "dhakwansidra26@gmail.com")))))))) = true /\
  isAdmin (app (step initialWorld (AuthStateChange
    (Some (mkSession (Some (mkUser (Some "Dhakwanhidaya@gmail.com")))))))) <> true.
Proof.
  pose proof (proj2 (proj2 (proj2 admin_allowlist_exact))) as H.
  split; [|split].
  - apply (H initialWorld). left. reflexivity.
  - apply (H initialWorld). right. reflexivity.
  - intros Htrue. apply (H initialWorld) in Htrue as [Heq|Heq]; discriminate Heq.
Defined.

(** ** View state: the filtered list *)

Section Filter.
Variable c : string.

Lemma filter_keep_sublist (ps : list Poster) :
  sublist (List.filter (hasCategory c) ps) ps.
Proof.
  induction ps as [|p ps IH]; cbn [List.filter]; [constructor|].
  destruct (hasCategory c p); by constructor.
Qed.

Lemma filter_keep_Forall (ps : list Poster) :
  Forall (fun p => category p = c) (List.filter (hasCategory c) ps).
Proof.
  induction ps as [|p ps IH]; cbn [List.filter]; [constructor|].
  destruct (hasCategory c p) eqn:Hp; [|done].
  constructor; [|done]. by apply String.eqb_eq.
Qed.

(** Every subsequence of the snapshot made of posters of category [c]
    only is already a subsequence of the filtered list: nothing of that
    category is left out, and nothing is reordered. *)
Lemma filter_keep_greatest (ps l : list Poster) :
  sublist l ps ->
  Forall (fun p => category p = c) l ->
  sublist l (List.filter (hasCategory c) ps).
Proof.
  revert l. induction ps as [|p ps IH]; intros l Hsub Hall.
  - apply sublist_nil_r in Hsub as ->. constructor.
  - cbn [List.filter]. apply sublist_cons_r in Hsub as [Hsub|(l' & -> & Hsub)].
    + destruct (hasCategory c p); [apply sublist_cons|]; by apply IH.
    + apply Forall_cons in Hall as [Hp Hall].
      assert (hasCategory c p = true) as -> by (by apply String.eqb_eq).
      apply sublist_skip. by apply IH.
Qed.

End Filter.

(** C2: with the category "all" selected the derived list is the whole
    snapshot; with any other category [c] it is exactly the subsequence of
    the snapshot made of the posters of category [c], in the snapshot's
    order: a subsequence of the snapshot, all of category [c], that contains
    every other such subsequence.  It is a function of the current state
    alone, so after a category change or a replaced snapshot it is computed
    from the new values. *)
Theorem filteredPosters_exact (st : AppState) (ps : list Poster) (c : string) :
  posters st = ps ->
  selectedCategory st = c ->
  (c = "all" -> filteredPosters st = ps) /\
  (c <> "all" ->
     sublist (filteredPosters st) ps /\
     Forall (fun p => category p = c) (filteredPosters st) /\
     (forall l, sublist l ps -> Forall (fun p => category p = c) l ->
                sublist l (filteredPosters st)) /\
     (forall p, p ∈ filteredPosters st <-> p ∈ ps /\ category p = c)) /\
  (forall (w : World) (c' : string),
     app w = st ->
     filteredPosters (app (step w (TabChange c'))) =
     filteredPosters
       (mkAppState ps (selectedPoster st) (isModalOpen st) (isUploadDialogOpen st)
          (isAuthModalOpen st) c' (isLoading st) (userEmail st) (isAdmin st))) /\
  (forall (w : World) (ps' : list Poster),
     app w = st ->
     filteredPosters (app (setPosters ps' w)) =
     filteredPosters
       (mkAppState ps' (selectedPoster st) (isModalOpen st) (isUploadDialogOpen st)
          (isAuthModalOpen st) c (isLoading st) (userEmail st) (isAdmin st))).
Proof.
  intros Hps Hc. unfold filteredPosters. rewrite Hps, Hc.
  split; [|split; [|split]].
  - intros ->. done.
  - intros Hne. destruct (String.eqb_spec c "all") as [|_]; [done|].
    split; [apply filter_keep_sublist|].
    split; [apply filter_keep_Forall|].
    split; [apply filter_keep_greatest|].
    intros p. rewrite !list_elem_of_In, filter_In. unfold hasCategory.
    rewrite String.eqb_eq. done.
  - intros w c' Hw. cbn [step]. unfold setSelectedCategory, update.
    cbn [app posters selectedCategory]. rewrite Hw, Hps. done.
  - intros w ps' Hw. unfold setPosters, update.
    cbn [app posters selectedCategory]. rewrite Hw, Hc. done.
Qed.

Lemma filteredPosters_exact_witness :
  filteredPosters vintageState =
    [ mkPoster "p1" "Sunset" "Vintage" "u1" "" "2024-01-01";
      mkPoster "p3" "Radio" "Vintage" "u3" "" "2024-01-03";
      mkPoster "p5" "Tram" "Vintage" "u5" "" "2024-01-05" ] /\
  sublist (filteredPosters vintageState) gallery5.
Proof.
  split; [reflexivity|].
  refine (proj1 (proj1 (proj2
    (filteredPosters_exact vintageState gallery5 "Vintage" eq_refl eq_refl)) _)).
  discriminate.
Defined.

(** ** Mutation gateway and view state: the guarded handlers *)

(** C3: a [handleDelete] call made while [isAdmin] is false raises the
    notice "Only admins can delete posters" and does nothing else: no
    request is sent or awaited, and the snapshot, like every other state
    cell, is unchanged. *)
Theorem handleDelete_not_admin (w : World) (posterId : string) :
  isAdmin (app w) = false ->
  let w' := handleDelete posterId w in
  effects w' = Alert "Only admins can delete posters" :: effects w /\
  notices w' = "Only admins can delete posters" :: notices w /\
  networkCalls w' = networkCalls w /\
  inflight w' = inflight w /\
  posters (app w') = posters (app w) /\
  app w' = app w.
Proof.
  intros Hadmin. unfold handleDelete. rewrite Hadmin. done.
Qed.

Lemma handleDelete_not_admin_witness :
  notices (handleDelete "p1" initialWorld) = ["Only admins can delete posters"] /\
  networkCalls (handleDelete "p1" initialWorld) = [].
Proof.
  pose proof (handleDelete_not_admin initialWorld "p1" eq_refl) as H.
  split; apply H.
Defined.

(** C8: a [handleAddPoster] call has one of two outcomes.  Without the
    admin role it raises one notice and opens the auth overlay, and the
    upload overlay is left as it was (closed stays closed).  With the admin
    role it opens the upload overlay, raises nothing, and leaves the auth
    overlay as it was.  In both cases no request is sent. *)
Theorem handleAddPoster_outcomes (w : World) :
  let w' := step w AddPosterClick in
  (isAdmin (app w) = false ->
     effects w' =
       Alert "Only admins can upload posters. Please sign in with an admin account."
       :: effects w /\
     isAuthModalOpen (app w') = true /\
     isUploadDialogOpen (app w') = isUploadDialogOpen (app w)) /\
  (isAdmin (app w) = true ->
     isUploadDialogOpen (app w') = true /\
     effects w' = effects w /\
     isAuthModalOpen (app w') = isAuthModalOpen (app w)) /\
  inflight w' = inflight w.
Proof.
  cbn [step]. unfold handleAddPoster.
  destruct (isAdmin (app w)); cbn; (split; [|split]); try done.
Qed.

Lemma handleAddPoster_outcomes_witness :
  let w' := step initialWorld AddPosterClick in
  isAuthModalOpen (app w') = true /\
  isUploadDialogOpen (app w') = false /\
  length (notices w') = 1.
Proof.
  destruct (proj1 (handleAddPoster_outcomes initialWorld) eq_refl)
    as (Heff & Hauth & Hupload).
  split; [exact Hauth|]. split; [exact Hupload|].
  unfold notices. rewrite Heff. reflexivity.
Defined.

(** ** Answers to requests *)

Lemma answer_lookup (w : World) (n : nat) (r : Response) (req : Request) :
  inflight w !! n = Some req ->
  step w (Answer n r) =
  resume req r {| app := app w; inflight := delete n (inflight w); effects := effects w |}.
Proof. intros Hreq. cbn [step]. unfold answer. by rewrite Hreq. Qed.

(** C6: when the answer to a refresh is a failure, reported by the server
    or thrown by the transport, the snapshot is kept, exactly one entry is
    written to the console, no notice is raised, no request is sent and no
    overlay is touched. *)
Theorem refresh_failure_keeps_snapshot (w : World) (n : nat) (r : Response) :
  inflight w !! n = Some GetPosters ->
  failed r = true ->
  let w' := step w (Answer n r) in
  posters (app w') = posters (app w) /\
  (exists msg, effects w' = ConsoleError msg :: effects w) /\
  notices w' = notices w /\
  networkCalls w' = networkCalls w /\
  isModalOpen (app w') = isModalOpen (app w) /\
  isUploadDialogOpen (app w') = isUploadDialogOpen (app w) /\
  isAuthModalOpen (app w') = isAuthModalOpen (app w).
Proof.
  intros Hreq Hfail. rewrite (answer_lookup _ _ _ _ Hreq).
  cbn [resume]. unfold fetchPosters_resume.
  destruct r as [result|reason]; cbn in Hfail.
  - destruct (success result); [discriminate|]. cbn. eauto 10.
  - cbn. eauto 10.
Qed.

Lemma refresh_failure_keeps_snapshot_witness :
  let w := run initialWorld [Mount; Answer 0 okGallery; Mount] in
  posters (app (step w (Answer 0 (Rejected "offline")))) = gallery5 /\
  posters (app (step w (Answer 0 (Resolved (mkResult false [] (Some "down")))))) = gallery5.
Proof.
  split.
  - exact (proj1 (refresh_failure_keeps_snapshot
      (run initialWorld [Mount; Answer 0 okGallery; Mount]) 0
      (Rejected "offline") eq_refl eq_refl)).
  - exact (proj1 (refresh_failure_keeps_snapshot
      (run initialWorld [Mount; Answer 0 okGallery; Mount]) 0
      (Resolved (mkResult false [] (Some "down"))) eq_refl eq_refl)).
Defined.

(** C5: the answer to a delete request, and the answer to an upload
    request, is followed by exactly one [fetchPosters] call and no notice
    when it is a success, and by no [fetchPosters] call and one notice when
    it is a failure, reported by the server or thrown by the transport.
    The upload half holds in every world, whether or not a delete is
    awaited, and its success is the [UploadSuccess] event of [App]. *)
Theorem mutation_answer_refresh (w : World) (r : Response) :
  let wu := UploadDialog.submit_resume onUploadSuccess r w in
  (failed r = false ->
     wu = step w UploadSuccess /\
     refreshCalls wu = S (refreshCalls w) /\
     notices wu = notices w) /\
  (failed r = true ->
     refreshCalls wu = refreshCalls w /\
     (exists msg, notices wu = msg :: notices w)) /\
  (forall (n : nat) (posterId : string),
     inflight w !! n = Some (DeletePoster posterId) ->
     let wd := step w (Answer n r) in
     (failed r = false ->
        refreshCalls wd = S (refreshCalls w) /\ notices wd = notices w) /\
     (failed r = true ->
        refreshCalls wd = refreshCalls w /\
        notices wd = "Failed to delete poster" :: notices w)).
Proof.
  cbn zeta. split; [|split].
  - unfold UploadDialog.submit_resume, onUploadSuccess. cbn [step].
    destruct w as [st infl effs].
    destruct r as [result|reason]; cbn [failed]; [|discriminate].
    destruct (success result); [|discriminate]. intros _. done.
  - unfold UploadDialog.submit_resume, onUploadSuccess.
    destruct w as [st infl effs].
    destruct r as [result|reason]; cbn [failed].
    + destruct (success result); [discriminate|]. intros _. cbn. eauto.
    + intros _. cbn. eauto.
  - intros n posterId Hreq. rewrite (answer_lookup _ _ _ _ Hreq).
    cbn [resume]. unfold handleDelete_resume.
    destruct w as [st infl effs].
    destruct r as [result|reason]; cbn [failed].
    + destruct (success result); cbn; split; intros Hf; try discriminate; eauto.
    + cbn; split; intros Hf; try discriminate; eauto.
Qed.

Lemma mutation_answer_refresh_witness :
  refreshCalls (step deletingWorld (Answer 0 (Resolved (mkResult true [] None)))) = 2 /\
  refreshCalls (step deletingWorld (Answer 0 (Rejected "offline"))) = 1 /\
  notices (step deletingWorld (Answer 0 (Resolved (mkResult false [] (Some "denied")))))
    = ["Failed to delete poster"] /\
  refreshCalls (UploadDialog.submit_resume onUploadSuccess
                  (Resolved (mkResult true [] None)) initialWorld) = 1 /\
  notices (UploadDialog.submit_resume onUploadSuccess
             (Resolved (mkResult true [] None)) initialWorld) = [] /\
  refreshCalls (UploadDialog.submit_resume onUploadSuccess
                  (Rejected "offline") initialWorld) = 0 /\
  refreshCalls (UploadDialog.submit_resume onUploadSuccess
                  (Resolved (mkResult false [] (Some "too large"))) deletingWorld) = 1.
Proof.
  split; [|split; [|split; [|split; [|split; [|split]]]]].
  - exact (proj1 (proj1 (proj2 (proj2 (mutation_answer_refresh deletingWorld
      (Resolved (mkResult true [] None)))) 0 "p1" eq_refl) eq_refl)).
  - exact (proj1 (proj2 (proj2 (proj2 (mutation_answer_refresh deletingWorld
      (Rejected "offline"))) 0 "p1" eq_refl) eq_refl)).
  - exact (proj2 (proj2 (proj2 (proj2 (mutation_answer_refresh deletingWorld
      (Resolved (mkResult false [] (Some "denied"))))) 0 "p1" eq_refl) eq_refl)).
  - exact (proj1 (proj2 (proj1 (mutation_answer_refresh initialWorld
      (Resolved (mkResult true [] None))) eq_refl))).
  - exact (proj2 (proj2 (proj1 (mutation_answer_refresh initialWorld
      (Resolved (mkResult true [] None))) eq_refl))).
  - exact (proj1 (proj1 (proj2 (mutation_answer_refresh initialWorld
      (Rejected "offline"))) eq_refl)).
  - exact (proj1 (proj1 (proj2 (mutation_answer_refresh deletingWorld
      (Resolved (mkResult false [] (Some "too large"))))) eq_refl)).
Defined.

(** ** Runs *)

Lemma run_snoc (w : World) (evs : list Event) (e : Event) :
  run w (evs ++ [e]) = step (run w evs) e.
Proof. unfold run. by rewrite foldl_app. Qed.

Lemma run_cons (w : World) (e : Event) (evs : list Event) :
  run w (e :: evs) = run (step w e) evs.
Proof. done. Qed.

(** ** The loading flag *)

Lemma filter_delete_length {A} (f : A -> bool) (l : list A) (n : nat) (x : A) :
  l !! n = Some x ->
  length (List.filter f l) =
  (if f x then 1 else 0) + length (List.filter f (delete n l)).
Proof.
  revert n. induction l as [|y l IH]; intros [|n] Hn; try done.
  - injection Hn as ->. cbn. destruct (f x); done.
  - change (l !! n = Some x) in Hn. specialize (IH _ Hn).
    change (delete (S n) (y :: l)) with (y :: delete n l).
    cbn [List.filter].
    destruct (f y); cbn [length]; rewrite IH; destruct (f x); lia.
Qed.

Lemma filter_snoc_length {A} (f : A -> bool) (l : list A) (x : A) :
  length (List.filter f (l ++ [x])) =
  length (List.filter f l) + (if f x then 1 else 0).
Proof. rewrite List.filter_app, length_app. cbn. by destruct (f x). Qed.

Lemma fetchPosters_effect (st : AppState) (l l' : list Request) (effs : list Effect) :
  length (List.filter isGetPosters l') = length (List.filter isGetPosters l) ->
  RefreshEffect (mkWorld st l effs) (fetchPosters (mkWorld st l' effs)).
Proof.
  intros Hl. apply refresh_started; cbn; [done| |done].
  unfold refreshesInFlight. cbn. rewrite filter_snoc_length, Hl. cbn. lia.
Qed.

(** Every event leaves the loading flag and the two refresh counters alone,
    starts one refresh, or ends one. *)
Lemma step_refresh_effect (w : World) (e : Event) : RefreshEffect w (step w e).
Proof.
  destruct w as [st infl effs].
  destruct e; cbn [step];
    try (by apply refresh_untouched);
    try (by apply fetchPosters_effect).
  - (* DeleteClick *)
    unfold onDelete, handleDelete. cbn [app].
    destruct (isAdmin st); cbn [negb skip]; [|by apply refresh_untouched].
    apply refresh_untouched; cbn; [done| |done].
    unfold refreshesInFlight. cbn. rewrite filter_snoc_length. cbn. lia.
  - (* AddPosterClick *)
    unfold handleAddPoster. cbn [app].
    destruct (isAdmin st); by apply refresh_untouched.
  - (* AuthSuccess *)
    apply refresh_started; cbn; [done| |done].
    unfold refreshesInFlight. cbn. rewrite filter_snoc_length. cbn. lia.
  - (* Answer *)
    unfold answer. cbn [inflight app effects].
    destruct (infl !! n) as [req|] eqn:Hreq; [|by apply refresh_untouched].
    pose proof (filter_delete_length isGetPosters _ _ _ Hreq) as Hlen.
    destruct req as [|posterId]; cbn [resume isGetPosters] in *.
    + unfold fetchPosters_resume.
      destruct r as [result|reason]; [destruct (success result)|];
        (apply refresh_ended; cbn; [done| |done]);
        unfold refreshesInFlight; cbn; lia.
    + unfold handleDelete_resume.
      destruct r as [result|reason]; [destruct (success result)|].
      * apply fetchPosters_effect. lia.
      * apply refresh_untouched; cbn; [done| |done].
        unfold refreshesInFlight. cbn. lia.
      * apply refresh_untouched; cbn; [done| |done].
        unfold refreshesInFlight. cbn. lia.
Qed.

Lemma loading_inv_init : loading_inv initialWorld.
Proof. split; [done|]. intros _. done. Qed.

Lemma loading_inv_step (w : World) (e : Event) :
  loading_inv w -> loading_inv (step w e).
Proof.
  intros [Hle Hidle].
  destruct (step_refresh_effect w e) as [Hl Hf Hc|Hl Hf Hc|Hl Hf Hc];
    (split; [lia|]); intros Hzero.
  - rewrite Hl, Hc. apply Hidle. lia.
  - lia.
  - rewrite Hl, Hc. split; [discriminate|lia].
Qed.

Lemma loading_inv_run (evs : list Event) : loading_inv (run initialWorld evs).
Proof.
  induction evs as [|e evs IH] using rev_ind; [apply loading_inv_init|].
  rewrite run_snoc. by apply loading_inv_step.
Qed.

Lemma serial_inv_step (w : World) (e : Event) :
  serial_inv w -> refreshesInFlight (step w e) <= 1 -> serial_inv (step w e).
Proof.
  intros (Hinv & Hone & Hbusy) Hle.
  split; [by apply loading_inv_step|]. split; [done|].
  destruct (step_refresh_effect w e) as [Hl Hf Hc|Hl Hf Hc|Hl Hf Hc]; intros Hf1.
  - rewrite Hl. apply Hbusy. lia.
  - done.
  - lia.
Qed.

Lemma serial_inv_run (w : World) (evs : list Event) :
  serial_inv w -> serial w evs = true -> serial_inv (run w evs).
Proof.
  revert w. induction evs as [|e evs IH]; intros w Hw Hser; [done|].
  cbn [serial] in Hser. apply andb_prop in Hser as [Hle Hser].
  apply bool_decide_eq_true in Hle.
  rewrite run_cons. apply IH; [|done]. by apply serial_inv_step.
Qed.

Lemma serial_inv_init : serial_inv initialWorld.
Proof.
  split; [apply loading_inv_init|]. split; [cbn; lia|]. done.
Qed.

(** C10: in the initial world the loading flag is true although no request
    has been sent and no refresh is in flight; and in every world reached
    before the first [fetchPosters] call the flag is still true. *)
Theorem isLoading_initially_true :
  isLoading initialState = true /\
  isLoading (app initialWorld) = true /\
  refreshCalls initialWorld = 0 /\
  refreshesInFlight initialWorld = 0 /\
  networkCalls initialWorld = [] /\
  (forall evs : list Event,
     refreshCalls (run initialWorld evs) = 0 ->
     isLoading (app (run initialWorld evs)) = true).
Proof.
  repeat (split; [done|]).
  intros evs Hcalls. destruct (loading_inv_run evs) as [Hle Hidle].
  apply Hidle; [lia|done].
Qed.

Lemma isLoading_initially_true_witness :
  isLoading (app (run initialWorld [TabChange "Vintage"; AdminLoginClick; AuthClose])) = true.
Proof.
  apply (proj2 (proj2 (proj2 (proj2 (proj2 isLoading_initially_true))))).
  reflexivity.
Defined.

(** C4 as the claim has it fails twice: before the first refresh the flag
    is true with no refresh in flight, and when two refreshes overlap the
    first answer puts the flag back to false while the second refresh is
    still in flight. *)
Lemma isLoading_claim_counterexample :
  ~ loading_iff_refreshing (run initialWorld []) /\
  ~ loading_iff_refreshing (run initialWorld overlappingRun).
Proof.
  split; intros [Hto Hfrom].
  - specialize (Hto eq_refl). cbn in Hto. lia.
  - assert (0 < refreshesInFlight (run initialWorld overlappingRun)) as H
      by (cbn; lia).
    specialize (Hfrom H). discriminate.
Qed.

(** C4, amended: [fetchPosters] sets the flag when it starts and clears it
    when its answer arrives, whatever the answer (success, reported
    failure, transport error).  When no refresh is in flight the flag is
    false, except before the first refresh, where it has its initial value
    true.  In a run without overlapping refreshes the flag is true exactly
    when a refresh is in flight or none has been started yet. *)
Theorem isLoading_refresh (evs : list Event) :
  let w := run initialWorld evs in
  isLoading (app (fetchPosters w)) = true /\
  (forall (n : nat) (r : Response),
     inflight w !! n = Some GetPosters ->
     isLoading (app (step w (Answer n r))) = false) /\
  (refreshesInFlight w = 0 ->
     (isLoading (app w) = true <-> refreshCalls w = 0)) /\
  (serial initialWorld evs = true ->
     (isLoading (app w) = true <-> 0 < refreshesInFlight w \/ refreshCalls w = 0)).
Proof.
  intros w. split; [done|]. split; [|split].
  - intros n r Hreq. rewrite (answer_lookup _ _ _ _ Hreq).
    cbn [resume]. unfold fetchPosters_resume.
    destruct r as [result|reason]; [destruct (success result)|]; done.
  - apply (loading_inv_run evs).
  - intros Hser.
    destruct (serial_inv_run initialWorld evs serial_inv_init Hser)
      as ((Hle & Hidle) & Hone & Hbusy).
    fold w in Hle, Hidle, Hone, Hbusy. split.
    + intros Hload. destruct (refreshesInFlight w) as [|k] eqn:Hk; [|lia].
      right. by apply Hidle.
    + intros [Hpos|Hnone].
      * apply Hbusy. lia.
      * apply Hidle; [lia|done].
Qed.

Lemma isLoading_refresh_witness :
  isLoading (app (run initialWorld [Mount; TabChange "Vintage"])) = true /\
  isLoading (app (run initialWorld [Mount; Answer 0 (Rejected "offline")])) = false.
Proof.
  split.
  - apply (proj2 (proj2 (proj2 (isLoading_refresh [Mount; TabChange "Vintage"]))) eq_refl).
    left. cbn. lia.
  - exact (proj1 (proj2 (isLoading_refresh [Mount])) 0 (Rejected "offline") eq_refl).
Defined.

(** ** The detail overlay and the selection *)

(** An event opens the overlay on a poster it selects, or keeps the
    selection and does not open the overlay. *)
Lemma step_detail (w : World) (e : Event) :
  (isModalOpen (app (step w e)) = true /\ is_Some (selectedPoster (app (step w e)))) \/
  (selectedPoster (app (step w e)) = selectedPoster (app w) /\
   (isModalOpen (app (step w e)) = isModalOpen (app w) \/
    isModalOpen (app (step w e)) = false)).
Proof.
  destruct w as [st infl effs].
  destruct e; cbn [step]; try (right; split; [done|by left]).
  - left. split; [done|]. by eexists.
  - unfold onDelete, handleDelete. cbn [app].
    destruct (isAdmin st); right; split; try done; by left.
  - unfold handleAddPoster. cbn [app].
    destruct (isAdmin st); right; split; try done; by left.
  - right. split; [done|by right].
  - unfold answer. cbn [inflight].
    destruct (infl !! n) as [[|posterId]|]; cbn [resume];
      [unfold fetchPosters_resume|unfold handleDelete_resume|];
      try (destruct r as [result|reason]; [destruct (success result)|]);
      right; split; try done; by left.
Qed.

Lemma open_selected_run (evs : list Event) :
  isModalOpen (app (run initialWorld evs)) = true ->
  is_Some (selectedPoster (app (run initialWorld evs))).
Proof.
  induction evs as [|e evs IH] using rev_ind; [done|].
  rewrite run_snoc.
  destruct (step_detail (run initialWorld evs) e)
    as [[_ Hsel]|[Hsel [Hopen|Hclosed]]]; [done| |].
  - rewrite Hsel, Hopen. exact IH.
  - rewrite Hclosed. discriminate.
Qed.

(** C7 as the claim has it fails: after a poster is clicked and the
    overlay is closed, the poster is still selected while the overlay is
    closed. *)
Lemma open_iff_selected_counterexample :
  let p := mkPoster "p1" "Sunset" "Vintage" "u1" "" "2024-01-01" in
  let w := run initialWorld [PosterClick p; ModalClose] in
  selectedPoster (app w) = Some p /\
  isModalOpen (app w) = false /\
  ~ open_iff_selected w.
Proof.
  cbn zeta. split; [done|]. split; [done|].
  intros [_ Hfrom]. specialize (Hfrom (mk_is_Some _ _ eq_refl)). discriminate.
Qed.

(** C7, amended: a poster click selects the poster and opens the detail
    overlay in one step, and in every reachable world an open detail
    overlay has a selected poster.  Closing the overlay keeps the
    selection, so a selection can exist while the overlay is closed. *)
Theorem detail_open_has_selection (evs : list Event) :
  let w := run initialWorld evs in
  (forall poster : Poster,
     selectedPoster (app (step w (PosterClick poster))) = Some poster /\
     isModalOpen (app (step w (PosterClick poster))) = true) /\
  (isModalOpen (app w) = true -> is_Some (selectedPoster (app w))) /\
  (selectedPoster (app (step w ModalClose)) = selectedPoster (app w) /\
   isModalOpen (app (step w ModalClose)) = false).
Proof.
  intros w. split; [done|]. split; [apply open_selected_run|done].
Qed.

Lemma detail_open_has_selection_witness :
  is_Some (selectedPoster (app (run initialWorld
    [Mount; PosterClick (mkPoster "p1" "Sunset" "Vintage" "u1" "" "2024-01-01")]))).
Proof.
  apply (proj1 (proj2 (detail_open_has_selection
    [Mount; PosterClick (mkPoster "p1" "Sunset" "Vintage" "u1" "" "2024-01-01")]))).
  reflexivity.
Defined.

(** * Further properties of the component *)

(** Case analysis on what a handler branches on: the role, the request an
    answer belongs to, and the answer itself. *)
Ltac handler_cases :=
  unfold onDelete, handleDelete, handleAddPoster, answer;
  cbn [app inflight effects];
  repeat match goal with
  | |- context [negb (isAdmin ?st)] => destruct (isAdmin st) eqn:?; cbn [negb]
  | |- context [if isAdmin ?st then _ else _] => destruct (isAdmin st) eqn:?
  | |- context [match ?l !! ?n with _ => _ end] =>
      destruct (l !! n) as [[|?]|] eqn:?; cbn [resume]
  | |- context [fetchPosters_resume ?r] =>
      unfold fetchPosters_resume; destruct r as [?|?]
  | |- context [handleDelete_resume ?r] =>
      unfold handleDelete_resume; destruct r as [?|?]
  | |- context [if success ?x then _ else _] => destruct (success x) eqn:?
  end.

(** ** The role follows the session *)

Lemma email_or_null_nonempty (session : option Session) :
  email_or_null session <> Some "".
Proof.
  unfold email_or_null. destruct (session_email session) as [e|]; [|done].
  destruct (truthy e) eqn:He; [|done].
  intros [= ->]. discriminate.
Qed.

(** Only the two session callbacks write the e-mail and the role, and they
    write both. *)
Lemma step_session_cells (w : World) (e : Event) :
  userEmail (app (step w e)) =
    match e with
    | GetSessionResolved session | AuthStateChange session => email_or_null session
    | _ => userEmail (app w)
    end /\
  isAdmin (app (step w e)) =
    match e with
    | GetSessionResolved session | AuthStateChange session =>
        admin_of_email (email_or_null session)
    | _ => isAdmin (app w)
    end.
Proof.
  destruct w as [st infl effs]. destruct e; cbn [step]; try done;
    handler_cases; cbn; split; congruence.
Qed.

Lemma role_inv_run (evs : list Event) : role_inv (app (run initialWorld evs)).
Proof.
  induction evs as [|e evs IH] using rev_ind; [done|].
  rewrite run_snoc. unfold role_inv.
  destruct (step_session_cells (run initialWorld evs) e) as [Hmail Hadmin].
  destruct IH as [Hrole Hemail]. rewrite Hmail, Hadmin.
  destruct e; try (split; [exact Hrole|exact Hemail]);
    (split; [done|apply email_or_null_nonempty]).
Qed.

(** X1: in every reachable world the role is the one derived from the
    stored e-mail: [isAdmin] holds exactly when an e-mail is stored and it is
    on the allowlist, and the stored e-mail is never the empty string. *)
Theorem isAdmin_iff_stored_email (evs : list Event) :
  let st := app (run initialWorld evs) in
  (isAdmin st = true <-> exists e, userEmail st = Some e /\ e ∈ ADMIN_EMAILS) /\
  userEmail st <> Some "" /\
  truthyEmail (userEmail st) = bool_decide (is_Some (userEmail st)).
Proof.
  intros st. destruct (role_inv_run evs) as [Hrole Hemail].
  fold st in Hrole, Hemail. split; [|split; [done|]].
  - rewrite Hrole. unfold admin_of_email.
    destruct (userEmail st) as [e|]; [|split; [done|by intros (e & [=] & _)]].
    destruct (truthy e) eqn:He.
    + rewrite includes_elem_of, bool_decide_eq_true.
      split; [by exists e|by intros (e' & [= ->] & He')].
    + apply truthy_false in He as ->. done.
  - destruct (userEmail st) as [e|]; cbn; [|done].
    destruct (truthy e) eqn:He; [done|].
    apply truthy_false in He as ->. done.
Qed.





(** Case analysis on an event and on what its handler branches on: the
    request an answer belongs to, the answer itself, and the role. *)
Ltac event_cases st infl e :=
  destruct e as [| ? | ? | ? | ? | ? | | | | | | | | | ?n ?r];
  [ .. | match goal with
         | n : nat, r : Response |- _ =>
             destruct (infl !! n) as [[|?]|] eqn:?;
             (destruct r as [?result|?]; [destruct (success result) eqn:?|])
         end ];
  try destruct (isAdmin st) eqn:?.

Ltac handler_simpl :=
  cbn [step];
  unfold onDelete, handleDelete, handleAddPoster, answer,
    fetchPosters_resume, handleDelete_resume;
  cbn;
  repeat (match goal with H : _ = _ |- _ => rewrite H end; cbn).

(** ** Requests *)

(** X3: an event sends at most one request, and which one is decided by
    the event alone: [GetPosters] on mount, on upload success, on auth
    success and on the successful answer to a delete; [DeletePoster] on the
    delete click of an admin; nothing on any other event, in particular not
    on a session change, a tab change or a failed answer.  The request
    sent is the one that is then awaited. *)
Theorem step_requests (w : World) (e : Event) :
  networkCalls (step w e) = (requestsSent w e ++ networkCalls w)%list /\
  length (requestsSent w e) <= 1 /\
  (forall req, req ∈ requestsSent w e -> req ∈ inflight (step w e)) /\
  refreshCalls (step w e) = (if startsRefresh w e then 1 else 0) + refreshCalls w.
Proof.
  destruct w as [st infl effs]. unfold requestsSent.
  event_cases st infl e; handler_simpl;
    (split; [reflexivity|]); (split; [lia|]); (split; [|reflexivity]);
    intros req Hreq;
    try (apply elem_of_nil in Hreq; contradiction);
    apply list_elem_of_singleton in Hreq as ->;
    apply elem_of_app; right; apply list_elem_of_singleton; reflexivity.
Qed.

Lemma step_requests_witness :
  GetPosters ∈ inflight (step initialWorld Mount) /\
  networkCalls (step deletingWorld (Answer 0 (Resolved (mkResult true [] None)))) =
    [GetPosters; DeletePoster "p1"; GetPosters].
Proof.
  split.
  - apply (proj1 (proj2 (proj2 (step_requests initialWorld Mount)))).
    cbn. left.
  - exact (proj1 (step_requests deletingWorld
      (Answer 0 (Resolved (mkResult true [] None))))).
Defined.

(** What holds as long as no session event grants the admin role. *)
Lemma step_without_admin (w : World) (e : Event) :
  grantsAdmin e = false ->
  isAdmin (app w) = false ->
  isAdmin (app (step w e)) = false /\
  (isUploadDialogOpen (app w) = false ->
   isUploadDialogOpen (app (step w e)) = false) /\
  List.filter isDeleteRequest (networkCalls (step w e)) =
  List.filter isDeleteRequest (networkCalls w).
Proof.
  intros Hgrant Hadmin.
  destruct (step_session_cells w e) as [_ Hrole].
  split; [|split].
  - rewrite Hrole. by destruct e.
  - destruct w as [st infl effs]. cbn [app] in Hadmin. cbn [app]. intros Hup.
    event_cases st infl e; handler_simpl; congruence.
  - destruct w as [st infl effs]. cbn [app] in Hadmin.
    event_cases st infl e; handler_simpl; congruence.
Qed.

(** X4: as long as no session event has granted the admin role, the role
    is false, no [DeletePoster] request has been sent, and the upload
    overlay has never been opened, whatever the user clicked. *)
Theorem no_admin_no_mutation (evs : list Event) :
  forallb (fun e => negb (grantsAdmin e)) evs = true ->
  let w := run initialWorld evs in
  isAdmin (app w) = false /\
  (forall posterId, DeletePoster posterId ∉ networkCalls w) /\
  isUploadDialogOpen (app w) = false.
Proof.
  intros Hall w.
  assert (isAdmin (app w) = false /\
          isUploadDialogOpen (app w) = false /\
          List.filter isDeleteRequest (networkCalls w) = []) as (Hadmin & Hup & Hdel).
  { unfold w. clear w. induction evs as [|e evs IH] using rev_ind; [done|].
    rewrite forallb_app in Hall. apply andb_prop in Hall as [Hevs He].
    cbn in He. rewrite andb_true_r in He. apply negb_true_iff in He.
    destruct (IH Hevs) as (Hadmin & Hup & Hdel). rewrite run_snoc.
    destruct (step_without_admin _ e He Hadmin) as (-> & Hup' & ->).
    by rewrite (Hup' Hup). }
  split; [done|]. split; [|done].
  intros posterId Hin. apply list_elem_of_In in Hin.
  assert (In (DeletePoster posterId) (List.filter isDeleteRequest (networkCalls w)))
    as Hfalse by (by apply filter_In).
  rewrite Hdel in Hfalse. destruct Hfalse.
Qed.

Lemma no_admin_no_mutation_witness :
  let w := run initialWorld
    [Mount; AuthStateChange (Some (mkSession (Some (mkUser (Some "guest@example.org")))));
     Answer 0 okGallery; DeleteClick "p1"; AddPosterClick] in
  isAdmin (app w) = false /\ isUploadDialogOpen (app w) = false.
Proof.
  pose proof (no_admin_no_mutation
    [Mount; AuthStateChange (Some (mkSession (Some (mkUser (Some "guest@example.org")))));
     Answer 0 okGallery; DeleteClick "p1"; AddPosterClick] eq_refl) as H.
  split; apply H.
Defined.

(** ** Deleting *)

(** X5: what a card's [onDelete] does.  For an admin it sends one
    [DeletePoster] request for the given poster and awaits it, without
    touching a state cell: the poster is not removed from the snapshot and
    the loading flag is not set.  For anyone else it does nothing at all,
    not even the notice [handleDelete] would raise.  It never raises a
    notice. *)
Theorem delete_click_effect (w : World) (posterId : string) :
  let w' := step w (DeleteClick posterId) in
  (isAdmin (app w) = true ->
     app w' = app w /\
     effects w' = NetRequest (DeletePoster posterId) :: effects w /\
     inflight w' = (inflight w ++ [DeletePoster posterId])%list) /\
  (isAdmin (app w) = false -> w' = w) /\
  notices w' = notices w.
Proof.
  destruct w as [st infl effs]. cbn [step app]. unfold onDelete, handleDelete.
  cbn [app]. destruct (isAdmin st); cbn; repeat split; done.
Qed.

Lemma delete_click_effect_witness :
  inflight deletingWorld = [DeletePoster "p1"] /\
  step initialWorld (DeleteClick "p1") = initialWorld.
Proof.
  split.
  - exact (proj2 (proj2 (proj1 (delete_click_effect
      (run initialWorld [Mount; AuthStateChange adminSession; Answer 0 okGallery])
      "p1") eq_refl))).
  - exact (proj1 (proj2 (delete_click_effect initialWorld "p1")) eq_refl).
Defined.

(** ** The snapshot *)

(** The snapshot after an event: the posters a successful answer to a
    refresh carries, and otherwise the snapshot as it was. *)
Lemma step_posters (w : World) (e : Event) :
  posters (app (step w e)) =
  match deliversSnapshot w e with
  | Some ps => ps
  | None => posters (app w)
  end.
Proof.
  destruct w as [st infl effs]. unfold deliversSnapshot.
  event_cases st infl e; handler_simpl; reflexivity.
Qed.

Lemma answer_inflight (w : World) (n : nat) (r : Response) :
  inflight w !! n = Some GetPosters ->
  inflight (step w (Answer n r)) = delete n (inflight w).
Proof.
  intros Hreq. rewrite (answer_lookup _ _ _ _ Hreq). cbn [resume].
  unfold fetchPosters_resume.
  destruct r as [result|reason]; [destruct (success result)|]; reflexivity.
Qed.

(** X6: the snapshot is written by nothing but a successful answer to a
    refresh, which replaces it wholesale by the posters it carries: no
    click, no session change, no failed answer and no answer to a delete
    changes it.  Such an answer is silent and touches nothing but the
    snapshot and the loading flag, so a poster selected before stays
    selected even when the new snapshot no longer has it. *)
Theorem snapshot_only_from_refresh (w : World) (e : Event) :
  let w' := step w e in
  posters (app w') =
    match deliversSnapshot w e with
    | Some ps => ps
    | None => posters (app w)
    end /\
  (is_Some (deliversSnapshot w e) ->
     effects w' = effects w /\
     isLoading (app w') = false /\
     selectedPoster (app w') = selectedPoster (app w) /\
     selectedCategory (app w') = selectedCategory (app w) /\
     (isModalOpen (app w'), isUploadDialogOpen (app w'), isAuthModalOpen (app w')) =
     (isModalOpen (app w), isUploadDialogOpen (app w), isAuthModalOpen (app w)) /\
     (userEmail (app w'), isAdmin (app w')) = (userEmail (app w), isAdmin (app w))).
Proof.
  split; [apply step_posters|].
  destruct w as [st infl effs]. unfold deliversSnapshot.
  event_cases st infl e; handler_simpl; intros [ps Hps]; try discriminate;
    repeat split; congruence.
Qed.

Lemma snapshot_only_from_refresh_witness :
  let w := run initialWorld
    [Mount; PosterClick (mkPoster "p9" "Gone" "Vintage" "u9" "" "2023-12-31")] in
  selectedPoster (app (step w (Answer 0 okGallery))) =
    Some (mkPoster "p9" "Gone" "Vintage" "u9" "" "2023-12-31") /\
  posters (app (step w (Answer 0 okGallery))) = gallery5.
Proof.
  pose proof (snapshot_only_from_refresh
    (run initialWorld
       [Mount; PosterClick (mkPoster "p9" "Gone" "Vintage" "u9" "" "2023-12-31")])
    (Answer 0 okGallery)) as [Hps Hrest].
  split; [|exact Hps].
  exact (proj1 (proj2 (proj2 (Hrest (mk_is_Some _ _ eq_refl))))).
Defined.

(** X7: a delete is never applied to the snapshot locally.  After an
    admin's delete click and its successful answer the snapshot is still
    the old one, the loading flag is set and one refresh is awaited; the
    snapshot changes when that refresh is answered, to whatever the answer
    carries, and no notice is raised on the way. *)
Theorem delete_then_refresh
    (w : World) (posterId : string) (del : Result)
    (ps' : list Poster) (err : option string) :
  isAdmin (app w) = true ->
  success del = true ->
  let n := length (inflight w) in
  let w1 := run w [DeleteClick posterId; Answer n (Resolved del)] in
  let w2 := step w1 (Answer n (Resolved (mkResult true ps' err))) in
  posters (app w1) = posters (app w) /\
  isLoading (app w1) = true /\
  inflight w1 = (inflight w ++ [GetPosters])%list /\
  posters (app w2) = ps' /\
  isLoading (app w2) = false /\
  inflight w2 = inflight w /\
  notices w2 = notices w.
Proof.
  destruct w as [st infl effs]. cbn [app inflight]. intros Hadmin Hdel. cbn zeta.
  set (n := length infl).
  set (w1 := run _ [DeleteClick posterId; Answer n (Resolved del)]).
  assert (w1 = fetchPosters (mkWorld st infl (NetRequest (DeletePoster posterId) :: effs)))
    as Hw1.
  { unfold w1. cbn [run foldl step]. unfold onDelete, handleDelete. cbn [app].
    rewrite Hadmin. cbn [negb]. unfold answer, await at 1 2 3 4. cbn [app inflight effects].
    unfold n.
    rewrite (list_lookup_middle infl [] _ _ eq_refl), delete_middle, app_nil_r.
    cbn [resume handleDelete_resume]. by rewrite Hdel. }
  assert (inflight w1 !! n = Some GetPosters) as Hn.
  { rewrite Hw1. cbn. by apply list_lookup_middle. }
  split; [by rewrite Hw1|]. split; [by rewrite Hw1|]. split; [by rewrite Hw1|].
  rewrite (answer_lookup _ _ _ _ Hn). rewrite Hw1.
  unfold fetchPosters, seq, await, setIsLoading, update.
  cbn [app inflight effects]. unfold n. rewrite delete_middle, app_nil_r. done.
Qed.

Lemma delete_then_refresh_witness :
  let w := run initialWorld [Mount; AuthStateChange adminSession; Answer 0 okGallery] in
  posters (app (run w [DeleteClick "p1"; Answer 0 (Resolved (mkResult true [] None))]))
    = gallery5 /\
  posters (app (run w [DeleteClick "p1"; Answer 0 (Resolved (mkResult true [] None));
                       Answer 0 (Resolved (mkResult true (drop 1 gallery5) None))]))
    = drop 1 gallery5.
Proof.
  pose proof (delete_then_refresh
    (run initialWorld [Mount; AuthStateChange adminSession; Answer 0 okGallery])
    "p1" (mkResult true [] None) (drop 1 gallery5) None eq_refl eq_refl) as H.
  split; [exact (proj1 H)|exact (proj1 (proj2 (proj2 (proj2 H))))].
Defined.

(** X8: when two refreshes are in flight, the answer that arrives last
    decides the snapshot, whichever request was sent first: if the answer
    to the older request arrives after the answer to the newer one, the
    older answer overwrites the newer. *)
Theorem last_answer_wins (w : World) (i j : nat) (ra rb : Result) :
  i < j ->
  inflight w !! i = Some GetPosters ->
  inflight w !! j = Some GetPosters ->
  success ra = true ->
  success rb = true ->
  posters (app (run w [Answer j (Resolved rb); Answer i (Resolved ra)])) =
    result_posters ra /\
  posters (app (run w [Answer i (Resolved ra); Answer (j - 1) (Resolved rb)])) =
    result_posters rb.
Proof.
  intros Hij Hi Hj Ha Hb. cbn [run foldl]. split.
  - rewrite step_posters. unfold deliversSnapshot.
    rewrite (answer_inflight _ _ _ Hj), list_lookup_delete_lt, Hi, Ha by done. done.
  - rewrite step_posters. unfold deliversSnapshot.
    rewrite (answer_inflight _ _ _ Hi), list_lookup_delete_ge by lia.
    replace (S (j - 1)) with j by lia. by rewrite Hj, Hb.
Qed.

Lemma last_answer_wins_witness :
  let w := run initialWorld [Mount; AuthSuccess] in
  posters (app (run w [Answer 1 (Resolved (mkResult true [] None)); Answer 0 okGallery]))
    = gallery5 /\
  posters (app (run w [Answer 0 okGallery; Answer 0 (Resolved (mkResult true [] None))]))
    = [].
Proof.
  pose proof (last_answer_wins (run initialWorld [Mount; AuthSuccess]) 0 1
    (mkResult true gallery5 None) (mkResult true [] None)
    (le_n 1) eq_refl eq_refl eq_refl eq_refl) as [H1 H2].
  split; [exact H1|exact H2].
Defined.

(** ** Signing out *)

(** X9: the sign-out click asks the auth client to sign out and touches no
    state cell: the e-mail and the role stay as they are, so an admin's
    delete click is still sent, until the session notification arrives;
    once a notification without e-mail has arrived the e-mail and the role
    are cleared and a delete click does nothing. *)
Theorem signOut_keeps_role (w : World) (posterId : string) :
  let w1 := step w SignOutClick in
  app w1 = app w /\
  inflight w1 = inflight w /\
  effects w1 = AuthSignOut :: effects w /\
  (isAdmin (app w) = true ->
     networkCalls (step w1 (DeleteClick posterId)) =
     DeletePoster posterId :: networkCalls w) /\
  (forall session : option Session,
     session_email session = None ->
     let w2 := step w1 (AuthStateChange session) in
     userEmail (app w2) = None /\
     isAdmin (app w2) = false /\
     step w2 (DeleteClick posterId) = w2).
Proof.
  destruct w as [st infl effs]. cbn [step]. unfold handleSignOut, emit.
  cbn [app inflight effects].
  repeat (split; [reflexivity|]). split.
  - intros Hadmin. unfold onDelete, handleDelete. cbn [app]. rewrite Hadmin. done.
  - intros session Hnone. unfold onAuthStateChange, email_or_null.
    rewrite Hnone. done.
Qed.

Lemma signOut_keeps_role_witness :
  let w := run initialWorld [AuthStateChange adminSession] in
  networkCalls (run w [SignOutClick; DeleteClick "p1"]) = [DeletePoster "p1"] /\
  run w [SignOutClick; AuthStateChange None; DeleteClick "p1"] =
  run w [SignOutClick; AuthStateChange None].
Proof.
  pose proof (signOut_keeps_role (run initialWorld [AuthStateChange adminSession]) "p1")
    as (_ & _ & _ & Hsend & Hclear).
  split; [exact (Hsend eq_refl)|exact (proj2 (proj2 (Hclear None eq_refl)))].
Defined.

(** ** Rendering *)

Lemma filteredPosters_nil (st : AppState) :
  filteredPosters st = [] <->
  forall p, p ∈ posters st ->
    selectedCategory st <> "all" /\ category p <> selectedCategory st.
Proof.
  unfold filteredPosters.
  destruct (String.eqb_spec (selectedCategory st) "all") as [Hall|Hne].
  - split.
    + intros -> p Hp. by apply elem_of_nil in Hp.
    + intros Hnone. destruct (posters st) as [|p ps]; [done|].
      destruct (Hnone p) as [Habs _]; [apply list_elem_of_here|]. done.
  - split.
    + intros Hnil p Hp. split; [done|]. intros Hcat.
      assert (In p (List.filter (hasCategory (selectedCategory st)) (posters st))) as Hin.
      { apply filter_In. split; [by apply list_elem_of_In|].
        by apply String.eqb_eq. }
      rewrite Hnil in Hin. destruct Hin.
    + intros Hnone.
      destruct (List.filter _ (posters st)) as [|p ps] eqn:Hf; [done|].
      assert (In p (List.filter (hasCategory (selectedCategory st)) (posters st)))
        as Hin by (rewrite Hf; by left).
      apply filter_In in Hin as [Hin Hcat]. apply String.eqb_eq in Hcat.
      apply list_elem_of_In in Hin. by destruct (Hnone p Hin).
Qed.

(** X10: the page shows the spinner or the grid, never both and never
    neither.  The grid has one card per filtered poster, in order, keyed by
    the poster's id, and every card shows its delete control exactly when
    the user is an admin.  The empty-state message is shown exactly when
    the grid is shown and has no card, that is when nothing is loading and
    no poster of the snapshot passes the filter; the "upload your first
    poster" button needs the message and the admin role. *)
Theorem render_grid_or_spinner (st : AppState) :
  let v := render st in
  (view_spinner v = true <-> view_grid v = None) /\
  (forall cards, view_grid v = Some cards ->
     List.map card_poster cards = filteredPosters st /\
     Forall (fun c => card_showDelete c = isAdmin st /\
                      card_key c = id (card_poster c)) cards) /\
  (view_emptyMessage v = true <-> view_grid v = Some []) /\
  (view_emptyMessage v = true <->
     isLoading st = false /\
     forall p, p ∈ posters st ->
       selectedCategory st <> "all" /\ category p <> selectedCategory st) /\
  (view_uploadFirstButton v = true <->
     view_emptyMessage v = true /\ view_addPosterButton v = true).
Proof.
  cbn zeta. unfold render.
  cbn [view_spinner view_grid view_emptyMessage view_uploadFirstButton
       view_addPosterButton].
  rewrite <- filteredPosters_nil.
  destruct (isLoading st); cbn [negb andb].
  - split; [done|]. split; [done|]. split; [done|].
    split; (split; [done|by intros [? _]]).
  - split; [done|]. split; [|split; [|split]].
    + intros cards [= <-]. split.
      * rewrite List.map_map. cbn. apply List.map_id.
      * apply Forall_forall. intros c Hc. apply list_elem_of_In in Hc.
        apply in_map_iff in Hc as (p & <- & _). done.
    + destruct (filteredPosters st); cbn; split; done.
    + destruct (filteredPosters st); cbn; split; try done. by intros [_ ?].
    + destruct (filteredPosters st), (isAdmin st); cbn; split; try done;
        by intros [? ?].
Qed.

Lemma render_grid_or_spinner_witness :
  List.map card_poster
    (default [] (view_grid (render vintageState))) = filteredPosters vintageState.
Proof.
  exact (proj1 (proj1 (proj2 (render_grid_or_spinner vintageState)) _ eq_refl)).
Defined.

(** X11: in every reachable world the header is consistent with the role:
    the "Admin" badge is shown exactly when the "Add Poster" button is, the
    "Sign Out" and "Admin Login" buttons exclude each other, the stored
    e-mail is shown as it is, and whenever the "Add Poster" button is
    shown the user is signed in with an e-mail of the allowlist. *)
Theorem render_header_follows_role (evs : list Event) :
  let st := app (run initialWorld evs) in
  let v := render st in
  view_adminBadge v = view_addPosterButton v /\
  view_signOutButton v = negb (view_adminLoginButton v) /\
  view_email v = userEmail st /\
  (view_addPosterButton v = true ->
     view_signOutButton v = true /\
     exists e, view_email v = Some e /\ e ∈ ADMIN_EMAILS) /\
  (view_adminLoginButton v = true ->
     view_addPosterButton v = false /\ view_email v = None).
Proof.
  intros st v.
  destruct (role_inv_run evs) as [Hrole Hne]. fold st in Hrole, Hne.
  unfold v, render.
  cbn [view_adminBadge view_addPosterButton view_signOutButton
       view_adminLoginButton view_email].
  rewrite Hrole. unfold admin_of_email, truthyEmail.
  destruct (userEmail st) as [e|] eqn:Hmail.
  - destruct (truthy e) eqn:He; [|by apply truthy_false in He as ->].
    cbn [andb negb]. repeat (split; [done|]). split; [|done].
    intros Hin. split; [done|]. exists e. split; [done|].
    by rewrite includes_elem_of, bool_decide_eq_true in Hin.
  - cbn [andb negb]. repeat split; done.
Qed.

Lemma render_header_follows_role_witness :
  view_signOutButton (render (app (run initialWorld [AuthStateChange adminSession])))
    = true.
Proof.
  exact (proj1 (proj1 (proj2 (proj2 (proj2
    (render_header_follows_role [AuthStateChange adminSession])))) eq_refl)).
Defined.

(** ** Runs the page offers *)

Lemma offered_run_snoc (w : World) (evs : list Event) (e : Event) :
  offered_run w (evs ++ [e]) = offered_run w evs && offered (run w evs) e.
Proof.
  revert w. induction evs as [|e' evs IH]; intros w; cbn [offered_run app].
  - cbn. by rewrite andb_true_r.
  - change ((e' :: evs) ++ [e])%list with (e' :: (evs ++ [e]))%list.
    cbn [offered_run]. rewrite IH, run_cons. by rewrite andb_assoc.
Qed.

(** The notice an event raises, if any: the failure notice of a delete, or
    the guard notice of an "add" click made without the admin role. *)
Lemma step_notices (w : World) (e : Event) :
  notices (step w e) = notices w \/
  notices (step w e) = deleteFailedNotice :: notices w \/
  (e = AddPosterClick /\ isAdmin (app w) = false /\
   notices (step w e) = uploadGuardNotice :: notices w).
Proof.
  destruct w as [st infl effs].
  event_cases st infl e; handler_simpl; auto.
Qed.

Lemma offered_add_is_admin (w : World) :
  offered w AddPosterClick = true -> isAdmin (app w) = true.
Proof.
  unfold offered, render. cbn [view_addPosterButton view_uploadFirstButton].
  destruct (isAdmin (app w)); [done|]. by rewrite andb_false_r.
Qed.

(** X12: the only notices the component raises through its page are the
    failure notice of a delete and the guard notice of an "add" click; the
    guard notice of [handleDelete] is never raised, because a card's
    [onDelete] calls [handleDelete] for admins only.  In a run in which
    every gesture uses a control the page shows, the guard notice of the
    "add" click is never raised either, because both "add" buttons are
    shown to admins only. *)
Theorem notices_of_runs (evs : list Event) :
  let w := run initialWorld evs in
  Forall (fun m => m = deleteFailedNotice \/ m = uploadGuardNotice) (notices w) /\
  (offered_run initialWorld evs = true ->
   Forall (fun m => m = deleteFailedNotice) (notices w)).
Proof.
  cbn zeta. induction evs as [|e evs [IHall IHoff]] using rev_ind.
  - split; [constructor|intros _; constructor].
  - rewrite run_snoc, offered_run_snoc.
    destruct (step_notices (run initialWorld evs) e)
      as [-> | [-> | (-> & Hadmin & ->)]].
    + split; [done|]. intros [Hoff _]%andb_prop. auto.
    + split; [constructor; auto|].
      intros [Hoff _]%andb_prop. constructor; auto.
    + split; [constructor; auto|].
      intros [_ Hoff]%andb_prop.
      apply offered_add_is_admin in Hoff. congruence.
Qed.

Lemma notices_of_runs_witness :
  Forall (fun m => m = deleteFailedNotice)
    (notices (run initialWorld
       [Mount; AuthStateChange adminSession; Answer 0 okGallery; DeleteClick "p1";
        AddPosterClick; Answer 0 (Rejected "offline")])).
Proof.
  apply (proj2 (notices_of_runs
    [Mount; AuthStateChange adminSession; Answer 0 okGallery; DeleteClick "p1";
     AddPosterClick; Answer 0 (Rejected "offline")])).
  reflexivity.
Defined.

Lemma step_selectedCategory (w : World) (e : Event) :
  selectedCategory (app (step w e)) =
  match e with
  | TabChange c => c
  | _ => selectedCategory (app w)
  end.
Proof.
  destruct w as [st infl effs].
  event_cases st infl e; handler_simpl; reflexivity.
Qed.

(** X13: in a run in which every gesture uses a control the page shows,
    the selected category is always one of the eight tabs, so the filter
    is "all" or one of the seven categories of the tab list. *)
Theorem selectedCategory_is_a_tab (evs : list Event) :
  offered_run initialWorld evs = true ->
  let st := app (run initialWorld evs) in
  selectedCategory st ∈ categories /\
  view_activeTab (render st) ∈ (view_tabs (render st)).*1.
Proof.
  intros Hoff st.
  assert (selectedCategory st ∈ categories) as Hin.
  { unfold st. clear st. induction evs as [|e evs IH] using rev_ind.
    - apply list_elem_of_here.
    - rewrite offered_run_snoc in Hoff. apply andb_prop in Hoff as [Hevs He].
      rewrite run_snoc, step_selectedCategory.
      destruct e; try (by apply IH).
      unfold offered in He. rewrite includes_elem_of in He.
      by apply bool_decide_eq_true in He. }
  split; exact Hin.
Qed.

Lemma selectedCategory_is_a_tab_witness :
  selectedCategory (app (run initialWorld [Mount; TabChange "Vintage"; Answer 0 okGallery]))
    ∈ categories.
Proof.
  exact (proj1 (selectedCategory_is_a_tab
    [Mount; TabChange "Vintage"; Answer 0 okGallery] eq_refl)).
Defined.

(** X14: a poster can be clicked only on a card the page shows: nothing is
    loading, the poster is in the snapshot and passes the current filter;
    the click selects that poster and opens the detail overlay. *)
Theorem offered_click_selects_shown (w : World) (poster : Poster) :
  offered w (PosterClick poster) = true ->
  let st := app w in
  let st' := app (step w (PosterClick poster)) in
  isLoading st = false /\
  poster ∈ filteredPosters st /\
  poster ∈ posters st /\
  (selectedCategory st <> "all" -> category poster = selectedCategory st) /\
  selectedPoster st' = Some poster /\
  isModalOpen st' = true /\
  posters st' = posters st.
Proof.
  intros Hoff st st'. unfold offered, render in Hoff. cbn [view_grid] in Hoff.
  fold st in Hoff. destruct (isLoading st); [discriminate|].
  cbn [negb] in Hoff. apply bool_decide_eq_true in Hoff.
  rewrite List.map_map in Hoff. cbn [card_poster] in Hoff.
  rewrite List.map_id in Hoff.
  split; [done|]. split; [done|].
  assert (poster ∈ posters st /\
          (selectedCategory st <> "all" -> category poster = selectedCategory st))
    as [Hin Hcat].
  { revert Hoff. unfold filteredPosters.
    destruct (String.eqb_spec (selectedCategory st) "all") as [Hall|Hne].
    - intros Hin. split; [done|]. by intros [].
    - rewrite list_elem_of_In, filter_In, <- list_elem_of_In.
      intros [Hin Hcat]. split; [done|]. intros _. by apply String.eqb_eq. }
  repeat split; done.
Qed.

Lemma offered_click_selects_shown_witness :
  let w := run initialWorld [Mount; TabChange "Vintage"; Answer 0 okGallery] in
  let p := mkPoster "p3" "Radio" "Vintage" "u3" "" "2024-01-03" in
  selectedPoster (app (step w (PosterClick p))) = Some p.
Proof.
  exact (proj1 (proj2 (proj2 (proj2 (proj2 (offered_click_selects_shown
    (run initialWorld [Mount; TabChange "Vintage"; Answer 0 okGallery])
    (mkPoster "p3" "Radio" "Vintage" "u3" "" "2024-01-03") eq_refl)))))).
Defined.

(** ** The overlays *)

(** X15: each overlay flag is written by its own gestures only.  The
    detail overlay is opened by a poster click and closed by its close
    signal; the upload overlay is opened by an admin's "add" click and
    closed by its close signal; the auth overlay is opened by the login
    button and by a non-admin's "add" click and closed by its close signal
    and by an auth success.  No session change, network answer, mount,
    tab change, delete click or sign-out, and no upload success, opens or
    closes an overlay: an upload overlay that is open stays open when the
    role is lost and when the upload succeeds. *)
Theorem overlay_flags (w : World) (e : Event) :
  isModalOpen (app (step w e)) =
    match e with
    | PosterClick _ => true
    | ModalClose => false
    | _ => isModalOpen (app w)
    end /\
  isUploadDialogOpen (app (step w e)) =
    match e with
    | AddPosterClick => isAdmin (app w) || isUploadDialogOpen (app w)
    | UploadClose => false
    | _ => isUploadDialogOpen (app w)
    end /\
  isAuthModalOpen (app (step w e)) =
    match e with
    | AdminLoginClick => true
    | AddPosterClick => negb (isAdmin (app w)) || isAuthModalOpen (app w)
    | AuthClose | AuthSuccess => false
    | _ => isAuthModalOpen (app w)
    end.
Proof.
  destruct w as [st infl effs].
  event_cases st infl e; handler_simpl; repeat split; reflexivity.
Qed.
